(** * AI-Code-Reviewer backend: the Express server, embedded and checked

    The server file registers four routes on an Express application:
    [POST /auth/register], [POST /auth/login], [POST /ai/get-review] and
    [GET /me], the last two behind [authMiddleware].  The user store is one
    JSON file, read and rewritten whole.

    Conventions of the embedding.
    - A JavaScript string is a [string]: a sequence of code units below 256.
    - Each route handler is a function in the monad [M]: it reads and writes
      the parsed contents of [users.json] and either returns a value or
      throws.  One request runs at a time.
    - The fields [email] and [password] of an auth request are strings when
      they are present, as in the data model of the service; [code] is any
      JSON value.  [AnyJson.login] is the login handler on a body whose
      fields are any JSON values; it agrees with [login] on string fields.
    - The store is a collection that is there: reading and writing
      [users.json] are taken to succeed.
    - Library calls ([bcrypt], [jsonwebtoken], [String.prototype.toLowerCase])
      are the fields of a record [Libs]; values the platform draws afresh
      (salt, uuid, clock) arrive in a record [Fresh].
    - A regular expression literal is kept as the text between its slashes
      and compiled by [RegExp.compile], which follows the pattern grammar of
      the language.  The model compiles a literal when the statement holding
      it is evaluated; an engine reports a literal the grammar rejects even
      earlier, when it parses the file. *)

From Stdlib Require Import String Ascii List Bool Arith PeanoNat Lia QArith.
From Stdlib Require Import DecimalString.
Import ListNotations.

Local Open Scope string_scope.
Local Open Scope nat_scope.

Set Implicit Arguments.

(** ** Results of evaluation

    [SyntaxError] and [TypeError] are the exceptions of the language,
    [LibraryError] is an [Error] that a library throws or rejects with.
    [Unmodelled] marks a pattern construct outside the fragment that
    [RegExp.compile] covers; neither literal of the server reaches one. *)

Inductive error : Type :=
| SyntaxError (message : string)
| TypeError (message : string)
| LibraryError (message : string)
| Unmodelled (construct : string).

Inductive result (A : Type) : Type :=
| Ret (a : A)
| Throw (e : error).

Arguments Ret {A} a.
Arguments Throw {A} e.

(** ** JavaScript strings *)

Module JS.

Definition LF : ascii := "010"%char.
Definition CR : ascii := "013"%char.

(** [s.split(sep)] for a separator of one code unit: never empty. *)
Fixpoint split (sep : ascii) (s : string) : list string :=
  match s with
  | EmptyString => [EmptyString]
  | String c rest =>
      if (c =? sep)%char then EmptyString :: split sep rest
      else match split sep rest with
           | first :: others => String c first :: others
           | [] => [String c EmptyString]
           end
  end.

(** [xs.join(sep)] *)
Definition join (sep : string) (xs : list string) : string :=
  String.concat sep xs.

(** Template substitution of a number: its decimal digits. *)
Definition decimal (n : nat) : string :=
  NilEmpty.string_of_uint (Nat.to_uint n).

(** [!s] is false exactly on a string that is not empty. *)
Definition truthy_string (s : string) : bool :=
  negb (s =? "")%string.

(** [s.includes(c)] for one code unit. *)
Fixpoint includes (c : ascii) (s : string) : bool :=
  match s with
  | EmptyString => false
  | String d rest => (d =? c)%char || includes c rest
  end.

(** [s.startsWith(p)] *)
Definition startsWith (p s : string) : bool :=
  String.prefix p s.

(** A text of [n] lines, each holding [line]. *)
Fixpoint lines_of (n : nat) (line : string) : string :=
  match n with
  | 0 => EmptyString
  | 1 => line
  | S m => line ++ String LF (lines_of m line)
  end.

End JS.

(** ** Regular expressions *)

Module RegExp.

Inductive char_class : Type := Space | Digit | Word.

Inductive regex : Type :=
| Eps
| Chr (c : ascii)
| Dot
| Cls (negated : bool) (k : char_class)
| Bol
| Eol
| Seq (r1 r2 : regex)
| Alt (r1 r2 : regex)
| Opt (r : regex)
| Star (r : regex)
| Plus (r : regex).

(** *** Compiling a pattern

    One pass over the pattern text with a stack of open groups.  A frame
    holds the alternatives already closed by [|], the terms of the current
    alternative, and its last term apart, so that a quantifier can take it. *)

Inductive term_kind : Type := Atomic | Quantified | Lazy | Assertion.

Record frame : Type := {
  alts : option regex;
  terms : regex;
  last : option (regex * term_kind)
}.

Definition empty_frame : frame :=
  {| alts := None; terms := Eps; last := None |}.

Definition cat (r1 r2 : regex) : regex :=
  match r1 with
  | Eps => r2
  | _ => Seq r1 r2
  end.

Definition alternative (f : frame) : regex :=
  match last f with
  | None => terms f
  | Some (r, _) => cat (terms f) r
  end.

Definition disjunction (f : frame) : regex :=
  match alts f with
  | None => alternative f
  | Some d => Alt d (alternative f)
  end.

Definition push_term (r : regex) (k : term_kind) (f : frame) : frame :=
  {| alts := alts f; terms := alternative f; last := Some (r, k) |}.

Definition close_alternative (f : frame) : frame :=
  {| alts := Some (disjunction f); terms := Eps; last := None |}.

Definition quantify (q : regex -> regex) (lazy_mark : bool) (f : frame)
  : result frame :=
  match last f with
  | Some (r, Atomic) =>
      Ret {| alts := alts f; terms := terms f; last := Some (q r, Quantified) |}
  | Some (r, Quantified) =>
      if lazy_mark
      then Ret {| alts := alts f; terms := terms f; last := Some (r, Lazy) |}
      else Throw (SyntaxError "Nothing to repeat")
  | _ => Throw (SyntaxError "Nothing to repeat")
  end.

(** The atom that [\c] stands for. *)
Definition escape (c : ascii) : result regex :=
  match c with
  | "s"%char => Ret (Cls false Space)
  | "S"%char => Ret (Cls true Space)
  | "d"%char => Ret (Cls false Digit)
  | "D"%char => Ret (Cls true Digit)
  | "w"%char => Ret (Cls false Word)
  | "W"%char => Ret (Cls true Word)
  | "n"%char => Ret (Chr "010")
  | "t"%char => Ret (Chr "009")
  | "r"%char => Ret (Chr "013")
  | "f"%char => Ret (Chr "012")
  | "v"%char => Ret (Chr "011")
  | "b"%char | "B"%char => Throw (Unmodelled "word boundary")
  | "c"%char | "x"%char | "u"%char | "k"%char | "p"%char | "P"%char =>
      Throw (Unmodelled "escape sequence")
  | "0"%char | "1"%char | "2"%char | "3"%char | "4"%char
  | "5"%char | "6"%char | "7"%char | "8"%char | "9"%char =>
      Throw (Unmodelled "decimal escape")
  | _ => Ret (Chr c)
  end.

Definition on_top (f : frame) (stack : list frame) (step : result frame)
  (k : frame -> list frame -> result regex) : result regex :=
  match step with
  | Ret f' => k f' stack
  | Throw e => Throw e
  end.

Fixpoint parse (p : string) (f : frame) (stack : list frame) {struct p}
  : result regex :=
  match p with
  | EmptyString =>
      match stack with
      | [] => Ret (disjunction f)
      | _ :: _ => Throw (SyntaxError "Unterminated group")
      end
  | String "\"%char EmptyString => Throw (SyntaxError "\ at end of pattern")
  | String "\"%char (String c rest) =>
      match escape c with
      | Ret a => parse rest (push_term a Atomic f) stack
      | Throw e => Throw e
      end
  | String "("%char (String "?"%char _) => Throw (Unmodelled "group specifier")
  | String c rest =>
      match c with
      | "("%char => parse rest empty_frame (f :: stack)
      | ")"%char =>
          match stack with
          | [] => Throw (SyntaxError "Unmatched ')'")
          | outer :: stack' =>
              parse rest (push_term (disjunction f) Atomic outer) stack'
          end
      | "|"%char => parse rest (close_alternative f) stack
      | "*"%char => on_top f stack (quantify Star false f) (parse rest)
      | "+"%char => on_top f stack (quantify Plus false f) (parse rest)
      | "?"%char => on_top f stack (quantify Opt true f) (parse rest)
      | "."%char => parse rest (push_term Dot Atomic f) stack
      | "^"%char => parse rest (push_term Bol Assertion f) stack
      | "$"%char => parse rest (push_term Eol Assertion f) stack
      | "["%char => Throw (Unmodelled "character class")
      | "{"%char => Throw (Unmodelled "braced quantifier")
      | _ => parse rest (push_term (Chr c) Atomic f) stack
      end
  end.

(** The value of the literal [/p/]. *)
Definition compile (p : string) : result regex :=
  parse p empty_frame [].

(** *** Matching *)

Definition in_class (k : char_class) (c : ascii) : bool :=
  let n := nat_of_ascii c in
  match k with
  | Space => (((9 <=? n) && (n <=? 13)) || (n =? 32) || (n =? 160))%nat
  | Digit => ((48 <=? n) && (n <=? 57))%nat
  | Word => (((48 <=? n) && (n <=? 57)) || ((65 <=? n) && (n <=? 90))
             || ((97 <=? n) && (n <=? 122)) || (n =? 95))%nat
  end.

Definition line_terminator (c : ascii) : bool :=
  (c =? JS.LF)%char || (c =? JS.CR)%char.

(** One code unit at index [i], when [ok] holds of it. *)
Definition one (ok : ascii -> bool) (s : string) (i : nat) : list nat :=
  match String.get i s with
  | Some c => if ok c then [S i] else []
  | None => []
  end.

(** Zero or more rounds of [step]; a round that consumes nothing is dropped. *)
Fixpoint rounds (step : nat -> list nat) (fuel : nat) (i : nat) : list nat :=
  match fuel with
  | 0 => [i]
  | S fuel' =>
      i :: flat_map (fun j => if i <? j then rounds step fuel' j else [])
                    (step i)
  end.

(** [ends r s i]: the indices where a match of [r] that starts at [i] can
    end.  No flag is set: [^] and [$] look at the ends of the input only. *)
Fixpoint ends (r : regex) (s : string) (i : nat) : list nat :=
  match r with
  | Eps => [i]
  | Chr c => one (Ascii.eqb c) s i
  | Dot => one (fun c => negb (line_terminator c)) s i
  | Cls negated k => one (fun c => xorb negated (in_class k c)) s i
  | Bol => if (i =? 0)%nat then [i] else []
  | Eol => if (i =? String.length s)%nat then [i] else []
  | Seq r1 r2 => flat_map (ends r2 s) (ends r1 s i)
  | Alt r1 r2 => ends r1 s i ++ ends r2 s i
  | Opt r1 => ends r1 s i ++ [i]
  | Star r1 => rounds (ends r1 s) (S (String.length s)) i
  | Plus r1 =>
      flat_map (rounds (ends r1 s) (S (String.length s))) (ends r1 s i)
  end.

Definition matches_at (r : regex) (s : string) (i : nat) : bool :=
  match ends r s i with
  | [] => false
  | _ :: _ => true
  end.

(** [r.test(s)] for a regex without flags: a match from some index. *)
Definition test (r : regex) (s : string) : bool :=
  existsb (matches_at r s) (seq 0 (S (String.length s))).

(** [/p/.test(s)] *)
Definition literal_test (p : string) (s : string) : result bool :=
  match compile p with
  | Ret r => Ret (test r s)
  | Throw e => Throw e
  end.

End RegExp.

(** ** Values and records *)

(** A parsed JSON value; a number is the rational its literal denotes. *)
#[warnings="-register-all"] Inductive json : Type :=
| JNull
| JBool (b : bool)
| JNumber (q : Q)
| JString (s : string)
| JArray (items : list json)
| JObject (fields : list (string * json)).

(** A property read off [req.body] or [req.headers]: [None] is [undefined]. *)
Definition truthy (v : option json) : bool :=
  match v with
  | None => false
  | Some JNull => false
  | Some (JBool b) => b
  | Some (JNumber q) => negb (Qeq_bool q 0)
  | Some (JString s) => JS.truthy_string s
  | Some (JArray _) => true
  | Some (JObject _) => true
  end.

Definition typeof (v : option json) : string :=
  match v with
  | None => "undefined"
  | Some JNull => "object"
  | Some (JBool _) => "boolean"
  | Some (JNumber _) => "number"
  | Some (JString _) => "string"
  | Some (JArray _) => "object"
  | Some (JObject _) => "object"
  end.

(** A string that is not empty. *)
Definition nonempty_string (v : option json) : bool :=
  match v with
  | Some (JString s) => JS.truthy_string s
  | _ => false
  end.

(** A property that holds a string or is absent. *)
Definition present (v : option string) : bool :=
  match v with
  | None => false
  | Some s => JS.truthy_string s
  end.

Definition text (v : option string) : string :=
  match v with
  | None => ""
  | Some s => s
  end.

Module User.
Record t : Type := {
  id : string;
  email : string;
  passwordHash : string;
  createdAt : string
}.
End User.

(** What [jwt.sign] embeds and [jwt.verify] gives back. *)
Module Payload.
Record t : Type := {
  id : string;
  email : string
}.
End Payload.

(** The objects the handlers pass to [res.json]. *)
Inductive reply : Type :=
| ErrorReply (error : string)
| SessionReply (token : string) (id email : string)
| ReviewReply (review : string)
| UserReply (id email createdAt : string).

Record Response : Type := {
  status : nat;
  body : reply
}.

(** [{ email, password }] of an auth request. *)
Record Credentials : Type := {
  email : option string;
  password : option string
}.

(** The libraries the server imports. [jwt_verify] is [None] when
    [jwt.verify] throws; the last argument of both is the clock, in
    seconds. *)
Record Libs : Type := {
  toLowerCase : string -> string;
  bcrypt_hash : string -> nat -> string -> string;
  bcrypt_compare : string -> string -> bool;
  jwt_sign : Payload.t -> string -> string -> nat -> string;
  jwt_verify : string -> string -> nat -> option Payload.t
}.

(** What one registration draws from the platform. *)
Record Fresh : Type := {
  salt : string;
  uuid : string;
  now_iso : string;
  clock : nat
}.

(** ** The handler monad: the user file, and exceptions *)

Definition Store : Type := list User.t.

Definition M (A : Type) : Type := Store -> result A * Store.

Definition ret {A : Type} (a : A) : M A :=
  fun users => (Ret a, users).

Definition bind {A B : Type} (m : M A) (k : A -> M B) : M B :=
  fun users =>
    match m users with
    | (Ret a, users') => k a users'
    | (Throw e, users') => (Throw e, users')
    end.

Definition lift {A : Type} (r : result A) : M A :=
  fun users => (r, users).

Notation "x <- m ;; k" := (bind m (fun x => k))
  (at level 61, m at next level, right associativity).

Definition readUsers : M (list User.t) :=
  fun users => (Ret users, users).

Definition writeUsers (users : list User.t) : M unit :=
  fun _ => (Ret tt, users).

(** [res.status(code).json(obj)] and [res.json(obj)] *)
Definition res_status_json (code : nat) (obj : reply) : M Response :=
  ret {| status := code; body := obj |}.

Definition res_json (obj : reply) : M Response :=
  res_status_json 200 obj.

(** ** The review heuristic *)

Module Review.

Definition large : string :=
  "File is large (>200 lines). Consider splitting into modules.".
Definition debug_print : string :=
  "Found debug print statements. Remove or guard them in production.".
Definition trailing : string :=
  "There appear to be trailing spaces on the last line.".
Definition no_issues : string :=
  "No obvious issues detected by the heuristic review.".

Definition hasConsole (code : string) : result bool :=
  RegExp.literal_test "console\\.log|print\\(|System\\.out\\.println" code.

Definition trailingWhitespace (code : string) : result bool :=
  RegExp.literal_test "\\s+$" code.

Definition push_if (b : bool) (s : string) (suggestions : list string)
  : list string :=
  if b then suggestions ++ [s] else suggestions.

(** The four pushes onto [suggestions]. *)
Definition suggest (lines : nat) (hasConsole trailingWhitespace : bool)
  : list string :=
  let suggestions := [] in
  let suggestions := push_if (200 <? lines) large suggestions in
  let suggestions := push_if hasConsole debug_print suggestions in
  let suggestions := push_if trailingWhitespace trailing suggestions in
  push_if (List.length suggestions =? 0) no_issues suggestions.

Record t : Type := {
  lines : nat;
  suggestions : list string
}.

Definition review (code : string) : result t :=
  let lines := List.length (JS.split JS.LF code) in
  match hasConsole code with
  | Throw e => Throw e
  | Ret hasConsole =>
      match trailingWhitespace code with
      | Throw e => Throw e
      | Ret trailingWhitespace =>
          Ret {| lines := lines;
                 suggestions := suggest lines hasConsole trailingWhitespace |}
      end
  end.

Definition reviewMarkdown (r : t) (user : Payload.t) : string :=
  JS.join "\n"
    [ "# Automated Review";
      "**Lines:** " ++ JS.decimal (lines r);
      "**Author:** " ++ Payload.email user;
      "";
      "## Suggestions";
      JS.join "\n" (map (fun s => "- " ++ s) (suggestions r));
      "";
      "## Tips";
      "- Run a linter (ESLint / flake8) for deeper checks.";
      "- Add unit tests for critical logic." ].

End Review.

(** ** The server *)

Section Server.

Variable L : Libs.
Variable env_JWT_SECRET : option string.

Definition JWT_SECRET : string :=
  if present env_JWT_SECRET then text env_JWT_SECRET else "dev_secret".

Definition generateToken (user : User.t) (clock : nat) : string :=
  jwt_sign L {| Payload.id := User.id user; Payload.email := User.email user |}
           JWT_SECRET "7d" clock.

Definition same_email (email : string) (u : User.t) : bool :=
  (toLowerCase L (User.email u) =? toLowerCase L email)%string.

Definition findUserByEmail (email : string) : M (option User.t) :=
  users <- readUsers ;;
  ret (find (same_email email) users).

Definition register (req_body : Credentials) (fresh : Fresh) : M Response :=
  if negb (present (email req_body)) || negb (present (password req_body))
  then res_status_json 400 (ErrorReply "email and password required")
  else
    let email := text (email req_body) in
    let password := text (password req_body) in
    existing <- findUserByEmail email ;;
    match existing with
    | Some _ => res_status_json 409 (ErrorReply "user already exists")
    | None =>
        let hashed := bcrypt_hash L password 10 (salt fresh) in
        users <- readUsers ;;
        let newUser := {| User.id := uuid fresh;
                          User.email := email;
                          User.passwordHash := hashed;
                          User.createdAt := now_iso fresh |} in
        _ <- writeUsers (users ++ [newUser]) ;;
        let token := generateToken newUser (clock fresh) in
        res_json (SessionReply token (User.id newUser) (User.email newUser))
    end.

Definition login (req_body : Credentials) (clock : nat) : M Response :=
  if negb (present (email req_body)) || negb (present (password req_body))
  then res_status_json 400 (ErrorReply "email and password required")
  else
    let email := text (email req_body) in
    let password := text (password req_body) in
    user <- findUserByEmail email ;;
    match user with
    | None => res_status_json 401 (ErrorReply "invalid credentials")
    | Some user =>
        if negb (bcrypt_compare L password (User.passwordHash user))
        then res_status_json 401 (ErrorReply "invalid credentials")
        else
          let token := generateToken user clock in
          res_json (SessionReply token (User.id user) (User.email user))
    end.

(** [next] is the rest of the route; [req.user] is its argument. *)
Definition authMiddleware (authorization : option string) (clock : nat)
  (next : Payload.t -> M Response) : M Response :=
  if negb (present authorization)
  then res_status_json 401 (ErrorReply "missing authorization")
  else
    let parts := JS.split " " (text authorization) in
    if negb (List.length parts =? 2)
    then res_status_json 401 (ErrorReply "invalid authorization header")
    else
      let token := nth 1 parts "" in
      match jwt_verify L token JWT_SECRET clock with
      | Some payload => next payload
      | None => res_status_json 401 (ErrorReply "invalid token")
      end.

Definition get_review (code : option json) (user : Payload.t) : M Response :=
  if negb (truthy code) || negb (typeof code =? "string")%string
  then res_status_json 400 (ErrorReply "code required")
  else
    let code := match code with Some (JString s) => s | _ => "" end in
    r <- lift (Review.review code) ;;
    res_json (ReviewReply (Review.reviewMarkdown r user)).

Definition me (user : Payload.t) : M Response :=
  users <- readUsers ;;
  match find (fun x => (User.id x =? Payload.id user)%string) users with
  | None => res_status_json 404 (ErrorReply "not found")
  | Some u =>
      res_json (UserReply (User.id u) (User.email u) (User.createdAt u))
  end.

(** The routes as registered on [app]. *)
Definition post_auth_register := register.
Definition post_auth_login := login.

Definition post_ai_get_review (authorization : option string) (clock : nat)
  (code : option json) : M Response :=
  authMiddleware authorization clock (get_review code).

Definition get_me (authorization : option string) (clock : nat) : M Response :=
  authMiddleware authorization clock me.

(** The three tests a request passes before [authMiddleware] calls [next]
    with [user]. *)
Definition accepted (authorization : option string) (clock : nat)
  (user : Payload.t) : Prop :=
  present authorization = true
  /\ List.length (JS.split " " (text authorization)) = 2
  /\ jwt_verify L (nth 1 (JS.split " " (text authorization)) "")
                JWT_SECRET clock = Some user.

(** The two routes that hand out a token. *)
Inductive issuer : Type :=
| ViaRegister (fresh : Fresh)
| ViaLogin (clock : nat).

Definition issued_at (via : issuer) : nat :=
  match via with
  | ViaRegister fresh => clock fresh
  | ViaLogin clock => clock
  end.

Definition issue (via : issuer) (req_body : Credentials) : M Response :=
  match via with
  | ViaRegister fresh => post_auth_register req_body fresh
  | ViaLogin clock => post_auth_login req_body clock
  end.

End Server.

(** What the server relies on from [jsonwebtoken]: a token signed with
    [expiresIn: '7d'] verifies under the same secret, to the payload it was
    signed with, until seven days have passed. *)
Definition seven_days : nat := 7 * 24 * 60 * 60.

Definition jwt_contract (L : Libs) : Prop :=
  forall payload secret iat now,
    now < iat + seven_days ->
    jwt_verify L (jwt_sign L payload secret "7d" iat) secret now = Some payload.

(** ** Login on any parsed body

    [express.json()] hands the handler whatever JSON the client sent, and
    lines 73-74 test the two fields for truthiness only.  A field that is not
    a string then reaches [email.toLowerCase()], inside the callback of
    [users.find], or [bcrypt.compare], which rejects with
    [Illegal arguments] unless both arguments are strings. *)

Module AnyJson.

Record Credentials : Type := {
  email : option json;
  password : option json
}.

Section Handlers.

Variable L : Libs.
Variable env_JWT_SECRET : option string.

(** [email.toLowerCase()] *)
Definition toLowerCase_of (email : option json) : result string :=
  match email with
  | Some (JString s) => Ret (toLowerCase L s)
  | None =>
      Throw (TypeError
               "Cannot read properties of undefined (reading 'toLowerCase')")
  | Some JNull =>
      Throw (TypeError
               "Cannot read properties of null (reading 'toLowerCase')")
  | Some _ => Throw (TypeError "email.toLowerCase is not a function")
  end.

(** [users.find(u => u.email.toLowerCase() === email.toLowerCase())]: the
    callback runs once for each user visited, not at all on an empty
    array. *)
Fixpoint find_same_email (email : option json) (users : list User.t)
  : result (option User.t) :=
  match users with
  | [] => Ret None
  | u :: rest =>
      match toLowerCase_of email with
      | Throw e => Throw e
      | Ret lowered =>
          if (toLowerCase L (User.email u) =? lowered)%string
          then Ret (Some u)
          else find_same_email email rest
      end
  end.

Definition findUserByEmail (email : option json) : M (option User.t) :=
  users <- readUsers ;;
  lift (find_same_email email users).

(** [bcrypt.compare(password, hash)] with a stored hash. *)
Definition compare (password : option json) (hash : string) : result bool :=
  match password with
  | Some (JString s) => Ret (bcrypt_compare L s hash)
  | _ =>
      Throw (LibraryError
               ("Illegal arguments: " ++ typeof password ++ ", string"))
  end.

Definition login (req_body : Credentials) (clock : nat) : M Response :=
  if negb (truthy (email req_body)) || negb (truthy (password req_body))
  then res_status_json 400 (ErrorReply "email and password required")
  else
    user <- findUserByEmail (email req_body) ;;
    match user with
    | None => res_status_json 401 (ErrorReply "invalid credentials")
    | Some user =>
        ok <- lift (compare (password req_body) (User.passwordHash user)) ;;
        if negb ok
        then res_status_json 401 (ErrorReply "invalid credentials")
        else
          let token := generateToken L env_JWT_SECRET user clock in
          res_json (SessionReply token (User.id user) (User.email user))
    end.

End Handlers.

End AnyJson.

(** A body whose fields are strings, as any parsed body. *)
Definition as_json (field : option string) : option json :=
  match field with
  | None => None
  | Some s => Some (JString s)
  end.

Definition any_json (req_body : Credentials) : AnyJson.Credentials :=
  {| AnyJson.email := as_json (email req_body);
     AnyJson.password := as_json (password req_body) |}.

(** ** A small instance of the libraries, to run the handlers on *)

Module Sample.

Definition lower (c : ascii) : ascii :=
  let n := nat_of_ascii c in
  if (65 <=? n) && (n <=? 90) then ascii_of_nat (n + 32) else c.

Fixpoint lowercase (s : string) : string :=
  match s with
  | EmptyString => EmptyString
  | String c rest => String (lower c) (lowercase rest)
  end.

Definition hash (password : string) (rounds : nat) (salt : string) : string :=
  "h$" ++ password.

Definition compare (password hashed : string) : bool :=
  (hashed =? hash password 10 "")%string.

Fixpoint marks (n : nat) : string :=
  match n with
  | 0 => EmptyString
  | S m => String "i" (marks m)
  end.

Fixpoint take (n : nat) (s : string) : string :=
  match n, s with
  | S m, String c rest => String c (take m rest)
  | _, _ => EmptyString
  end.

Fixpoint drop (n : nat) (s : string) : string :=
  match n, s with
  | S m, String c rest => drop m rest
  | _, _ => s
  end.

(** A field is framed by its length in marks and a dot. *)
Definition framed (field : string) : string :=
  marks (String.length field) ++ "." ++ field.

Fixpoint unframe (n : nat) (s : string) : option (string * string) :=
  match s with
  | String "i"%char rest => unframe (S n) rest
  | String "."%char rest => Some (take n rest, drop n rest)
  | _ => None
  end.

(** A token is the framed id, the framed email, and the secret as its
    signature; it does not expire. *)
Definition sign (payload : Payload.t) (secret expiresIn : string) (clock : nat)
  : string :=
  framed (Payload.id payload) ++ framed (Payload.email payload) ++ secret.

Definition verify (token secret : string) (clock : nat) : option Payload.t :=
  match unframe 0 token with
  | None => None
  | Some (i, rest) =>
      match unframe 0 rest with
      | None => None
      | Some (e, signature) =>
          if (signature =? secret)%string
          then Some {| Payload.id := i; Payload.email := e |}
          else None
      end
  end.

Definition libs : Libs :=
  {| toLowerCase := lowercase;
     bcrypt_hash := hash;
     bcrypt_compare := compare;
     jwt_sign := sign;
     jwt_verify := verify |}.

Definition alice : User.t :=
  {| User.id := "u1";
     User.email := "a@x.com";
     User.passwordHash := "h$p1";
     User.createdAt := "2024-01-01T00:00:00.000Z" |}.

(** The token that [generateToken] makes for [alice] under the default
    secret. *)
Definition alice_token : string := "ii.u1iiiiiii.a@x.comdev_secret".

Definition fresh : Fresh :=
  {| salt := "s"; uuid := "u2"; now_iso := "2024-01-02T00:00:00.000Z";
     clock := 100 |}.

(** The text of three lines: a, b, c. *)
Definition a_b_c : string :=
  String "a" (String JS.LF (String "b" (String JS.LF "c"))).

Definition credentials (e p : string) : Credentials :=
  {| email := Some e; password := Some p |}.

End Sample.

(** ** The data file at start-up, and further notions for the statements *)







(** No two stored users have the same email once lowercased. *)
Definition emails_distinct (L : Libs) (users : Store) : Prop :=
  NoDup (map (fun u => toLowerCase L (User.email u)) users).

(** [c.repeat(k)] for one code unit. *)
Fixpoint run_of (c : ascii) (k : nat) : string :=
  match k with
  | 0 => EmptyString
  | S k' => String c (run_of c k')
  end.

(** How many times a code unit occurs in a string. *)
Fixpoint occurrences (c : ascii) (s : string) : nat :=
  match s with
  | EmptyString => 0
  | String d rest => (if (d =? c)%char then 1 else 0) + occurrences c rest
  end.

(** * Properties *)

(** ** The regular expression literals of the review route *)

Module RegExpFacts.
Import RegExp.

(** The engine on a few patterns, as a check of the embedding. *)
Example class_escape_space : literal_test "\s+$" "a  " = Ret true.
Proof. reflexivity. Qed.

Example class_escape_space_inner : literal_test "\s+$" "a  b" = Ret false.
Proof. reflexivity. Qed.

Example escaped_paren : literal_test "print\(" "x = print(3)" = Ret true.
Proof. reflexivity. Qed.

Example group_star_anchor : literal_test "^(a|b)*c$" "ababc" = Ret true.
Proof. reflexivity. Qed.

Example nothing_to_repeat :
  compile "a**" = Throw (SyntaxError "Nothing to repeat").
Proof. reflexivity. Qed.

Example unmatched_paren : compile "a)" = Throw (SyntaxError "Unmatched ')'").
Proof. reflexivity. Qed.

(** In the pattern of [hasConsole] every backslash is doubled.  [\\] is the
    escape of a backslash, so the [(] after [print\\] opens a group, and the
    pattern ends before the group is closed. *)
Lemma hasConsole_pattern_rejected :
  compile "console\\.log|print\\(|System\\.out\\.println"
  = Throw (SyntaxError "Unterminated group").
Proof. reflexivity. Qed.

(** The pattern of [trailingWhitespace] compiles: a backslash, then one or
    more letters s, then the end of the input. *)
Lemma trailingWhitespace_pattern :
  compile "\\s+$" = Ret (Seq (Seq (Chr "\") (Plus (Chr "s"))) Eol).
Proof. reflexivity. Qed.

Lemma get_includes (s : string) (i : nat) (c : ascii) :
  String.get i s = Some c -> JS.includes c s = true.
Proof.
  revert i. induction s as [ | d rest IH]; intros i H; [discriminate H |].
  simpl. destruct i as [ | i]; simpl in H.
  - inversion H; subst. now rewrite Ascii.eqb_refl.
  - rewrite (IH i H). apply orb_true_r.
Qed.

Lemma one_absent (c : ascii) (s : string) (i : nat) :
  JS.includes c s = false -> one (Ascii.eqb c) s i = [].
Proof.
  intros H. unfold one. destruct (String.get i s) as [d | ] eqn:G;
    [ | reflexivity].
  destruct (Ascii.eqb_spec c d) as [E | _]; [ | reflexivity].
  subst d. rewrite (@get_includes s i c G) in H. discriminate H.
Qed.

Lemma existsb_never {A : Type} (f : A -> bool) (l : list A) :
  (forall x, f x = false) -> existsb f l = false.
Proof.
  intros H. induction l as [ | a l IH]; simpl; [reflexivity |].
  now rewrite H, IH.
Qed.

(** A pattern that begins with a code unit finds no match in a text that
    does not hold it. *)
Lemma test_first_absent (c : ascii) (r : regex) (s : string) :
  JS.includes c s = false -> test (Seq (Seq (Chr c) r) Eol) s = false.
Proof.
  intros H. unfold test. apply existsb_never. intros i.
  unfold matches_at. simpl. now rewrite (@one_absent c s i H).
Qed.

End RegExpFacts.

Module ReviewFacts.
Import Review.

Lemma hasConsole_throws (code : string) :
  hasConsole code = Throw (SyntaxError "Unterminated group").
Proof.
  unfold hasConsole, RegExp.literal_test.
  now rewrite RegExpFacts.hasConsole_pattern_rejected.
Qed.

(** Without a backslash in the text, line 108 answers false. *)
Lemma trailingWhitespace_needs_backslash (code : string) :
  JS.includes "\"%char code = false -> trailingWhitespace code = Ret false.
Proof.
  intros H. unfold trailingWhitespace, RegExp.literal_test.
  rewrite RegExpFacts.trailingWhitespace_pattern.
  now rewrite (@RegExpFacts.test_first_absent _ _ code H).
Qed.

Lemma review_throws (code : string) :
  review code = Throw (SyntaxError "Unterminated group").
Proof. unfold review. now rewrite hasConsole_throws. Qed.

(** What the four pushes build, whatever the two tests answered. *)
Lemma in_push_if (b : bool) (s x : string) (l : list string) :
  In x (push_if b s l) <-> In x l \/ (b = true /\ x = s).
Proof.
  unfold push_if. destruct b.
  - rewrite in_app_iff. simpl. intuition congruence.
  - intuition congruence.
Qed.

Lemma suggest_large (n : nat) (hc tw : bool) :
  In large (suggest n hc tw) <-> 200 < n.
Proof.
  unfold suggest. rewrite !in_push_if. simpl.
  rewrite Nat.ltb_lt.
  split.
  - intros [[[[[] | [H _]] | [_ H]] | [_ H]] | [_ H]];
      try assumption; discriminate H.
  - intros H. left. left. left. right. split; [assumption | reflexivity].
Qed.

Lemma suggest_debug_print (n : nat) (hc tw : bool) :
  In debug_print (suggest n hc tw) <-> hc = true.
Proof.
  unfold suggest. rewrite !in_push_if. simpl.
  split.
  - intros [[[[[] | [_ H]] | [H _]] | [_ H]] | [_ H]];
      try assumption; discriminate H.
  - intros H. left. left. right. split; [assumption | reflexivity].
Qed.

Lemma suggest_trailing (n : nat) (hc tw : bool) :
  In trailing (suggest n hc tw) <-> tw = true.
Proof.
  unfold suggest. rewrite !in_push_if. simpl.
  split.
  - intros [[[[[] | [_ H]] | [_ H]] | [H _]] | [_ H]];
      try assumption; discriminate H.
  - intros H. left. right. split; [assumption | reflexivity].
Qed.

Lemma suggest_nothing_found (n : nat) :
  n <= 200 -> suggest n false false = [no_issues].
Proof.
  intros H. unfold suggest.
  replace (200 <? n) with false by (symmetry; apply Nat.ltb_ge; exact H).
  reflexivity.
Qed.

End ReviewFacts.

Section ReviewRoute.

Variable L : Libs.
Variable env_JWT_SECRET : option string.

Lemma get_review_throws (s : string) (user : Payload.t) (users : Store) :
  s <> "" ->
  get_review (Some (JString s)) user users
  = (Throw (SyntaxError "Unterminated group"), users).
Proof.
  intros Hs. unfold get_review, truthy, typeof, JS.truthy_string.
  destruct (String.eqb_spec s "") as [E | _]; [contradiction |].
  simpl. unfold bind, lift. now rewrite ReviewFacts.review_throws.
Qed.

(** C1: a text that holds a [console.log] call, [print(] or
    [System.out.println] should get the debug print suggestion.  On
    [console.log(1)], [print(1)] and [System.out.println(1)] the review
    throws when it builds the pattern of [hasConsole] and produces no
    suggestion list; and the alternative [console\\.log], which does compile
    on its own, asks for a backslash and does not match [console.log(1)]. *)
Theorem debug_print_not_reported (user : Payload.t) (users : Store) :
  Review.review "console.log(1)" = Throw (SyntaxError "Unterminated group")
  /\ Review.review "print(1)" = Throw (SyntaxError "Unterminated group")
  /\ Review.review "System.out.println(1)"
     = Throw (SyntaxError "Unterminated group")
  /\ get_review (Some (JString "console.log(1)")) user users
     = (Throw (SyntaxError "Unterminated group"), users)
  /\ RegExp.literal_test "console\\.log" "console.log(1)" = Ret false.
Proof.
  split; [apply ReviewFacts.review_throws |].
  split; [apply ReviewFacts.review_throws |].
  split; [apply ReviewFacts.review_throws |].
  split; [apply get_review_throws; discriminate | reflexivity].
Qed.

(** C2: a text whose last line ends in spaces should get the trailing
    whitespace suggestion.  On a text that is the letter a and two spaces
    the pattern of [trailingWhitespace], a backslash and letters s before the
    end of the input, does not match, as on every text without a backslash;
    so the suggestion is not pushed whatever the other tests answer; and the
    review as a whole throws on the pattern of [hasConsole] before that. *)
Theorem trailing_spaces_not_reported (user : Payload.t) (users : Store) :
  Review.trailingWhitespace "a  " = Ret false
  /\ (forall code, JS.includes "\"%char code = false ->
                   Review.trailingWhitespace code = Ret false)
  /\ (forall lines hc, ~ In Review.trailing (Review.suggest lines hc false))
  /\ Review.review "a  " = Throw (SyntaxError "Unterminated group")
  /\ get_review (Some (JString "a  ")) user users
     = (Throw (SyntaxError "Unterminated group"), users).
Proof.
  split; [reflexivity |].
  split; [exact ReviewFacts.trailingWhitespace_needs_backslash |].
  split.
  - intros lines hc H. apply ReviewFacts.suggest_trailing in H. discriminate H.
  - split; [apply ReviewFacts.review_throws |].
    apply get_review_throws. discriminate.
Qed.

(** C3: the text of the three lines a, b, c should give exactly the no
    obvious issues suggestion.  The text has three lines, and the pattern of
    [trailingWhitespace] does not match it, but the review throws on the
    pattern of [hasConsole] and gives no list. *)
Theorem three_short_lines_no_list (user : Payload.t) (users : Store) :
  List.length (JS.split JS.LF Sample.a_b_c) = 3
  /\ Review.trailingWhitespace Sample.a_b_c = Ret false
  /\ Review.review Sample.a_b_c = Throw (SyntaxError "Unterminated group")
  /\ get_review (Some (JString Sample.a_b_c)) user users
     = (Throw (SyntaxError "Unterminated group"), users).
Proof.
  split; [reflexivity |].
  split; [reflexivity |].
  split; [apply ReviewFacts.review_throws |].
  apply get_review_throws. discriminate.
Qed.

(** C4: a text of 201 or more lines should get the file is large
    suggestion.  A text of 201 lines is counted as 201 lines, but the review
    throws on the pattern of [hasConsole] and gives no list. *)
Theorem large_file_not_reported (user : Payload.t) (users : Store) :
  List.length (JS.split JS.LF (JS.lines_of 201 "x")) = 201
  /\ Review.review (JS.lines_of 201 "x")
     = Throw (SyntaxError "Unterminated group")
  /\ get_review (Some (JString (JS.lines_of 201 "x"))) user users
     = (Throw (SyntaxError "Unterminated group"), users).
Proof.
  split; [vm_compute; reflexivity |].
  split; [apply ReviewFacts.review_throws |].
  apply get_review_throws. discriminate.
Qed.

Lemma authMiddleware_next (authorization : option string) (clock : nat)
  (user : Payload.t) (next : Payload.t -> M Response) (users : Store) :
  accepted L env_JWT_SECRET authorization clock user ->
  authMiddleware L env_JWT_SECRET authorization clock next users
  = next user users.
Proof.
  intros (Hp & Hlen & Hv). unfold authMiddleware.
  rewrite Hp, Hlen, Hv. reflexivity.
Qed.

Lemma get_review_guard (code : option json) :
  negb (truthy code) || negb (typeof code =? "string")%string
  = negb (nonempty_string code).
Proof.
  destruct code as [[ | b | q | s | items | fields] | ]; simpl;
    try reflexivity; try apply orb_true_r.
  apply orb_false_r.
Qed.

(** C10: behind the token gate, [POST /ai/get-review] answers 400 with
    [code required] exactly when [code] is not a string with at least one
    code unit: absent, null, a boolean, a number, an array, an object or the
    empty string. *)
Theorem get_review_requires_code (authorization : option string)
  (clock : nat) (user : Payload.t) (code : option json) (users : Store) :
  accepted L env_JWT_SECRET authorization clock user ->
  nonempty_string code = false <->
  post_ai_get_review L env_JWT_SECRET authorization clock code users
  = (Ret {| status := 400; body := ErrorReply "code required" |}, users).
Proof.
  intros Hacc. unfold post_ai_get_review.
  rewrite (authMiddleware_next _ _ Hacc).
  unfold get_review. rewrite get_review_guard.
  destruct (nonempty_string code); simpl.
  - split; [discriminate |].
    unfold bind, lift, res_json, res_status_json, ret.
    destruct (Review.review _); intros H; inversion H.
  - split; reflexivity.
Qed.

End ReviewRoute.

(** ** Registration, login and the token gate *)

Module JSFacts.

Lemma split_without_separator (sep : ascii) (s : string) :
  JS.includes sep s = false -> JS.split sep s = [s].
Proof.
  induction s as [ | c rest IH]; simpl; [reflexivity |].
  intros H. apply orb_false_iff in H. destruct H as [Hc Hrest].
  rewrite Hc, (IH Hrest). reflexivity.
Qed.

Lemma split_bearer (token : string) :
  JS.includes " " token = false ->
  JS.split " " ("Bearer " ++ token) = ["Bearer"; token].
Proof.
  intros H. simpl. rewrite (split_without_separator _ _ H). reflexivity.
Qed.

End JSFacts.

Ltac run :=
  unfold issue, post_auth_register, post_auth_login, register, login,
    findUserByEmail, me, bind, ret, lift, readUsers, writeUsers,
    res_json, res_status_json in *.

Section Auth.

Variable L : Libs.
Variable env_JWT_SECRET : option string.

Lemma find_same_email (email : string) (users : Store) :
  (exists u, In u users /\ same_email L email u = true) ->
  exists u, find (same_email L email) users = Some u.
Proof.
  intros (u & Hin & Hu).
  destruct (find (same_email L email) users) as [v | ] eqn:F.
  - exists v. reflexivity.
  - rewrite (find_none _ _ F u Hin) in Hu. discriminate Hu.
Qed.

Lemma find_by_id (users : Store) (u : User.t) (i : string) :
  NoDup (map User.id users) ->
  In u users ->
  User.id u = i ->
  find (fun x => (User.id x =? i)%string) users = Some u.
Proof.
  intros Hnd Hin Hi. subst i.
  induction users as [ | a rest IH]; simpl in *; [contradiction |].
  inversion Hnd as [ | ? ? Hnotin Hrest]; subst.
  destruct (String.eqb_spec (User.id a) (User.id u)) as [E | N].
  - destruct Hin as [-> | Hin]; [reflexivity |].
    exfalso. apply Hnotin. rewrite E. apply in_map. exact Hin.
  - destruct Hin as [-> | Hin]; [contradiction N; reflexivity |].
    apply IH; assumption.
Qed.

(** On string fields: a login for an email that no user has and a login
    with a wrong password for a user that exists both answer 401 with
    [invalid credentials], and the two responses are equal. *)
Theorem login_rejections_indistinguishable
  (unknown wrong : Credentials) (clock1 clock2 : nat)
  (users1 users2 : Store) (u : User.t) :
  present (email unknown) = true -> present (password unknown) = true ->
  present (email wrong) = true -> present (password wrong) = true ->
  find (same_email L (text (email unknown))) users1 = None ->
  find (same_email L (text (email wrong))) users2 = Some u ->
  bcrypt_compare L (text (password wrong)) (User.passwordHash u) = false ->
  fst (login L env_JWT_SECRET unknown clock1 users1)
  = Ret {| status := 401; body := ErrorReply "invalid credentials" |}
  /\ fst (login L env_JWT_SECRET wrong clock2 users2)
     = fst (login L env_JWT_SECRET unknown clock1 users1).
Proof.
  intros He1 Hp1 He2 Hp2 Hnone Hsome Hcmp. run.
  rewrite He1, Hp1, He2, Hp2. cbn.
  rewrite Hnone, Hsome. cbn. rewrite Hcmp. cbn.
  split; reflexivity.
Qed.

(** C6, as amended: when both fields are present and the email equals, after
    lowercasing, the email of a stored user, registration answers 409 and
    leaves the stored collection as it was. *)
Theorem register_duplicate_conflict
  (req_body : Credentials) (fresh : Fresh) (users : Store) :
  present (email req_body) = true ->
  present (password req_body) = true ->
  (exists u, In u users /\ same_email L (text (email req_body)) u = true) ->
  register L env_JWT_SECRET req_body fresh users
  = (Ret {| status := 409; body := ErrorReply "user already exists" |}, users).
Proof.
  intros He Hp Hdup. apply find_same_email in Hdup. destruct Hdup as [v Hv].
  run. rewrite He, Hp. cbn. rewrite Hv. reflexivity.
Qed.

(** C7, as amended: a request whose Authorization header is absent or
    empty, or does not split on the space into exactly two parts, or whose
    second part fails verification, is answered 401, and the rest of the
    route is not run: the answer is the same whatever [next] is, for both
    protected routes, and the store is untouched. *)
Theorem authMiddleware_rejects (authorization : option string) (clock : nat)
  (code : option json) (users : Store) :
  present authorization = false
  \/ List.length (JS.split " " (text authorization)) <> 2
  \/ jwt_verify L (nth 1 (JS.split " " (text authorization)) "")
                (JWT_SECRET env_JWT_SECRET) clock = None ->
  exists message,
    (forall next,
        authMiddleware L env_JWT_SECRET authorization clock next users
        = (Ret {| status := 401; body := ErrorReply message |}, users))
    /\ post_ai_get_review L env_JWT_SECRET authorization clock code users
       = (Ret {| status := 401; body := ErrorReply message |}, users)
    /\ get_me L env_JWT_SECRET authorization clock users
       = (Ret {| status := 401; body := ErrorReply message |}, users).
Proof.
  intros H.
  assert (exists message, forall next,
            authMiddleware L env_JWT_SECRET authorization clock next users
            = (Ret {| status := 401; body := ErrorReply message |}, users))
    as [message Hm].
  { unfold authMiddleware.
    destruct (present authorization) eqn:Hp; simpl.
    - destruct (List.length (JS.split " " (text authorization)) =? 2)
        eqn:Hlen; simpl.
      + apply Nat.eqb_eq in Hlen.
        destruct H as [H | [H | H]];
          [discriminate H | contradiction | ].
        rewrite H. eexists. intros next. reflexivity.
      + eexists. intros next. reflexivity.
    - eexists. intros next. reflexivity. }
  exists message. split; [exact Hm |].
  split; apply Hm.
Qed.

(** No route removes or rewrites a stored user: a request leaves the store
    as it was or appends one user to it. *)
Lemma register_keeps_or_appends
  (req_body : Credentials) (fresh : Fresh) (users : Store) :
  let users' := snd (register L env_JWT_SECRET req_body fresh users) in
  users' = users \/ exists u, users' = (users ++ [u])%list.
Proof.
  cbv zeta. run.
  destruct (negb (present (email req_body))
            || negb (present (password req_body))); [left; reflexivity |].
  destruct (find _ users); [left; reflexivity |].
  right. eexists. reflexivity.
Qed.

Lemma login_keeps_store (req_body : Credentials) (clock : nat) (users : Store) :
  snd (login L env_JWT_SECRET req_body clock users) = users.
Proof.
  run.
  destruct (negb (present (email req_body))
            || negb (present (password req_body))); [reflexivity |].
  destruct (find _ users) as [user | ]; [ | reflexivity].
  destruct (negb (bcrypt_compare L _ _)); reflexivity.
Qed.

Lemma me_keeps_store (user : Payload.t) (users : Store) :
  snd (me user users) = users.
Proof. run. destruct (find _ users); reflexivity. Qed.

Lemma get_review_keeps_store (code : option json) (user : Payload.t)
  (users : Store) :
  snd (get_review code user users) = users.
Proof.
  unfold get_review. run.
  destruct (negb (truthy code) || negb (typeof code =? "string")%string);
    [reflexivity |].
  destruct (Review.review _); reflexivity.
Qed.

Lemma authMiddleware_keeps_store (authorization : option string)
  (clock : nat) (next : Payload.t -> M Response) (users : Store) :
  (forall user, snd (next user users) = users) ->
  snd (authMiddleware L env_JWT_SECRET authorization clock next users) = users.
Proof.
  intros Hnext. unfold authMiddleware. run.
  destruct (negb (present authorization)); [reflexivity |].
  destruct (negb (List.length _ =? 2)); [reflexivity |].
  destruct (jwt_verify L _ _ _); [apply Hnext | reflexivity].
Qed.

(** C9: a registration that answers 200 has replaced the stored collection
    by the old one with the new user appended: one element longer, and every
    stored user still at its index. *)
Theorem register_appends_one_user
  (req_body : Credentials) (fresh : Fresh) (users users' : Store)
  (response : Response) :
  register L env_JWT_SECRET req_body fresh users = (Ret response, users') ->
  status response = 200 ->
  users' = (users ++
             [ {| User.id := uuid fresh;
                  User.email := text (email req_body);
                  User.passwordHash :=
                    bcrypt_hash L (text (password req_body)) 10 (salt fresh);
                  User.createdAt := now_iso fresh |} ])%list
  /\ List.length users' = S (List.length users)
  /\ (forall i u, nth_error users i = Some u -> nth_error users' i = Some u).
Proof.
  intros Hrun Hok. run.
  destruct (negb (present (email req_body))
            || negb (present (password req_body))).
  - inversion Hrun; subst. discriminate Hok.
  - destruct (find _ users) as [existing | ].
    + inversion Hrun; subst. discriminate Hok.
    + inversion Hrun; subst. split; [reflexivity |].
      split.
      * rewrite length_app. simpl. lia.
      * intros i u Hi. rewrite nth_error_app1; [exact Hi |].
        apply nth_error_Some. rewrite Hi. discriminate.
Qed.

(** C8: a token handed out by [POST /auth/register] or [POST /auth/login],
    sent to [GET /me] as [Bearer <token>] before seven days have passed,
    gets 200 with the id and email that came with the token.  The store may
    have grown in between; ids in it are distinct, and [jsonwebtoken] keeps
    its contract. *)
Theorem issued_token_resolves_at_me
  (via : issuer) (req_body : Credentials) (users users' more : Store)
  (token user_id user_email : string) (now : nat) :
  issue L env_JWT_SECRET via req_body users
  = (Ret {| status := 200; body := SessionReply token user_id user_email |}, users') ->
  jwt_contract L ->
  now < issued_at via + seven_days ->
  JS.includes " " token = false ->
  NoDup (map User.id (users' ++ more)) ->
  exists createdAt,
    get_me L env_JWT_SECRET (Some ("Bearer " ++ token)) now
      (users' ++ more)%list
    = (Ret {| status := 200; body := UserReply user_id user_email createdAt |},
       (users' ++ more)%list).
Proof.
  intros Hissue Hjwt Hnow Hsp Hnd.
  assert (exists u, In u users' /\ User.id u = user_id /\ User.email u = user_email
                    /\ token = generateToken L env_JWT_SECRET u (issued_at via))
    as (u & Hin & Hid & Hem & Htok).
  { destruct via as [fresh | clock]; run.
    - destruct (negb (present (email req_body))
                || negb (present (password req_body)));
        [inversion Hissue |].
      destruct (find _ users) as [existing | ]; [inversion Hissue |].
      inversion Hissue; subst. eexists. split.
      + apply in_or_app. right. left. reflexivity.
      + simpl. repeat split; reflexivity.
    - destruct (negb (present (email req_body))
                || negb (present (password req_body)));
        [inversion Hissue |].
      destruct (find _ users) as [found | ] eqn:F; [ | inversion Hissue].
      destruct (negb (bcrypt_compare L _ _)); [inversion Hissue |].
      inversion Hissue; subst. exists found. split.
      + apply (find_some _ _ F).
      + repeat split; reflexivity. }
  exists (User.createdAt u).
  unfold get_me.
  rewrite (@authMiddleware_next L env_JWT_SECRET (Some ("Bearer " ++ token)) now
             {| Payload.id := User.id u; Payload.email := User.email u |}).
  - run. cbn [Payload.id Payload.email].
    rewrite (@find_by_id (users' ++ more)%list u (User.id u)); trivial.
    + rewrite Hid, Hem. reflexivity.
    + apply in_or_app. left. exact Hin.
  - unfold accepted, text.
    rewrite (JSFacts.split_bearer _ Hsp).
    split; [reflexivity |]. split; [reflexivity |].
    simpl nth. rewrite Htok. unfold generateToken.
    apply Hjwt. exact Hnow.
Qed.

End Auth.

(** ** The claims that fail as stated, at an input *)

(** C6 as stated fails: a registration whose email is that of a stored user
    in another case, but which has no password, is answered 400, not 409. *)
Lemma register_duplicate_without_password :
  let req_body := {| email := Some "A@X.com"; password := None |} in
  (exists u, In u [Sample.alice]
             /\ same_email Sample.libs (text (email req_body)) u = true)
  /\ register Sample.libs None req_body Sample.fresh [Sample.alice]
     = (Ret {| status := 400;
               body := ErrorReply "email and password required" |},
        [Sample.alice])
  /\ 400 <> 409.
Proof.
  cbv zeta. split.
  - exists Sample.alice. split; [left; reflexivity | reflexivity].
  - split; [reflexivity | discriminate].
Qed.

(** C7 as stated fails: a header that is not of the form [Bearer <token>]
    but carries a token that verifies passes the gate, and the route runs. *)
Lemma authorization_scheme_not_checked :
  let authorization := "Basic " ++ Sample.alice_token in
  JS.startsWith "Bearer " authorization = false
  /\ get_me Sample.libs None (Some authorization) 5 [Sample.alice]
     = (Ret {| status := 200;
               body := UserReply "u1" "a@x.com" "2024-01-01T00:00:00.000Z" |},
        [Sample.alice])
  /\ 200 <> 401.
Proof.
  cbv zeta. split; [reflexivity |]. split; [reflexivity | discriminate].
Qed.

(** ** The theorems at concrete inputs *)

Module SampleFacts.
Import Sample.

Lemma take_app (a b : string) : take (String.length a) (a ++ b) = a.
Proof. induction a as [ | c a IH]; simpl; [destruct b | rewrite IH]; reflexivity. Qed.

Lemma drop_app (a b : string) : drop (String.length a) (a ++ b) = b.
Proof. induction a as [ | c a IH]; simpl; [destruct b; reflexivity | exact IH]. Qed.

Lemma unframe_marks (k n : nat) (rest : string) :
  unframe n (marks k ++ "." ++ rest)
  = Some (take (n + k) rest, drop (n + k) rest).
Proof.
  revert n. induction k as [ | k IH]; intros n; simpl.
  - rewrite Nat.add_0_r. reflexivity.
  - rewrite IH. rewrite Nat.add_succ_r. reflexivity.
Qed.

Lemma append_assoc (a b c : string) : ((a ++ b) ++ c = a ++ (b ++ c))%string.
Proof. induction a as [ | x a IH]; simpl; [ | rewrite IH]; reflexivity. Qed.

Lemma unframe_framed (field rest : string) :
  unframe 0 (framed field ++ rest) = Some (field, rest).
Proof.
  unfold framed. rewrite !append_assoc.
  rewrite unframe_marks. cbn [Nat.add].
  now rewrite take_app, drop_app.
Qed.

Lemma jwt_roundtrip : jwt_contract libs.
Proof.
  intros [i e] secret iat now _.
  cbn [libs jwt_verify jwt_sign]. unfold verify, sign.
  cbn [Payload.id Payload.email].
  rewrite unframe_framed, unframe_framed, String.eqb_refl. reflexivity.
Qed.

Example alice_token_issued :
  generateToken libs None alice 5 = alice_token.
Proof. reflexivity. Qed.

End SampleFacts.

Lemma login_rejections_indistinguishable_witness :
  fst (login Sample.libs None (Sample.credentials "nobody@x.com" "p1") 5 [Sample.alice])
  = Ret {| status := 401; body := ErrorReply "invalid credentials" |}
  /\ fst (login Sample.libs None (Sample.credentials "A@X.com" "guess") 6 [Sample.alice])
     = fst (login Sample.libs None (Sample.credentials "nobody@x.com" "p1") 5
              [Sample.alice]).
Proof.
  apply (@login_rejections_indistinguishable Sample.libs None
           (Sample.credentials "nobody@x.com" "p1")
           (Sample.credentials "A@X.com" "guess") 5 6
           [Sample.alice] [Sample.alice] Sample.alice); reflexivity.
Defined.

Lemma register_duplicate_conflict_witness :
  register Sample.libs None (Sample.credentials "A@X.com" "p2") Sample.fresh [Sample.alice]
  = (Ret {| status := 409; body := ErrorReply "user already exists" |},
     [Sample.alice]).
Proof.
  apply (@register_duplicate_conflict Sample.libs None
           (Sample.credentials "A@X.com" "p2") Sample.fresh [Sample.alice]);
    try reflexivity.
  exists Sample.alice. split; [left; reflexivity | reflexivity].
Defined.

Lemma authMiddleware_rejects_witness :
  exists message,
    (forall next,
        authMiddleware Sample.libs None (Some "Bearer") 5 next [Sample.alice]
        = (Ret {| status := 401; body := ErrorReply message |}, [Sample.alice]))
    /\ post_ai_get_review Sample.libs None (Some "Bearer") 5
         (Some (JString "x")) [Sample.alice]
       = (Ret {| status := 401; body := ErrorReply message |}, [Sample.alice])
    /\ get_me Sample.libs None (Some "Bearer") 5 [Sample.alice]
       = (Ret {| status := 401; body := ErrorReply message |}, [Sample.alice]).
Proof.
  apply (@authMiddleware_rejects Sample.libs None (Some "Bearer") 5
           (Some (JString "x")) [Sample.alice]).
  right. left. simpl. discriminate.
Defined.

Lemma register_appends_one_user_witness :
  let users' :=
    snd (register Sample.libs None (Sample.credentials "b@x.com" "p2") Sample.fresh
           [Sample.alice]) in
  users' = ([Sample.alice] ++
             [ {| User.id := "u2"; User.email := "b@x.com";
                  User.passwordHash := "h$p2";
                  User.createdAt := "2024-01-02T00:00:00.000Z" |} ])%list
  /\ List.length users' = 2
  /\ (forall i u, nth_error [Sample.alice] i = Some u ->
                  nth_error users' i = Some u).
Proof.
  cbv zeta.
  apply (@register_appends_one_user Sample.libs None
           (Sample.credentials "b@x.com" "p2") Sample.fresh [Sample.alice] _
           {| status := 200;
              body := SessionReply "ii.u2iiiiiii.b@x.comdev_secret" "u2"
                        "b@x.com" |});
    reflexivity.
Defined.

Lemma issued_token_resolves_at_me_witness :
  exists createdAt,
    get_me Sample.libs None (Some ("Bearer " ++ Sample.alice_token)) 1000
      [Sample.alice]
    = (Ret {| status := 200; body := UserReply "u1" "a@x.com" createdAt |},
       [Sample.alice]).
Proof.
  apply (@issued_token_resolves_at_me Sample.libs None (ViaLogin 5)
           (Sample.credentials "A@X.com" "p1") [Sample.alice] [Sample.alice] []
           Sample.alice_token "u1" "a@x.com" 1000).
  - reflexivity.
  - exact SampleFacts.jwt_roundtrip.
  - cbn [issued_at]. unfold seven_days. lia.
  - reflexivity.
  - simpl. repeat constructor. intros [].
Defined.

Lemma get_review_requires_code_witness :
  post_ai_get_review Sample.libs None
    (Some ("Bearer " ++ Sample.alice_token)) 5
    (Some (JNumber 7)) [Sample.alice]
  = (Ret {| status := 400; body := ErrorReply "code required" |},
     [Sample.alice]).
Proof.
  apply (@get_review_requires_code Sample.libs None
           (Some ("Bearer " ++ Sample.alice_token)) 5
           {| Payload.id := "u1"; Payload.email := "a@x.com" |}
           (Some (JNumber 7)) [Sample.alice]).
  - unfold accepted. split; [reflexivity | split; reflexivity].
  - reflexivity.
Defined.

(** * Further properties of the routes *)

Module ListFacts.

Local Open Scope list_scope.

Lemma find_app {A : Type} (f : A -> bool) (l l' : list A) :
  find f (l ++ l') = match find f l with
                     | Some x => Some x
                     | None => find f l'
                     end.
Proof.
  induction l as [ | a l IH]; simpl; [reflexivity |].
  destruct (f a); [reflexivity | exact IH].
Qed.


Lemma find_first {A : Type} (f : A -> bool) (l : list A) (x : A) :
  find f l = Some x <->
  exists before after,
    l = before ++ x :: after /\ f x = true
    /\ forall y, In y before -> f y = false.
Proof.
  split.
  - revert x. induction l as [ | a l IH]; simpl; intros x H; [discriminate H |].
    destruct (f a) eqn:Fa.
    + inversion H; subst. exists [], l. repeat split; trivial.
      intros y [].
    + destruct (IH x H) as (before & after & -> & Fx & Hb).
      exists (a :: before), after. repeat split; trivial.
      intros y [<- | Hy]; [exact Fa | apply Hb, Hy].
  - intros (before & after & -> & Fx & Hb).
    rewrite find_app.
    destruct (find f before) as [y | ] eqn:Fb.
    + apply find_some in Fb. destruct Fb as [Hin Fy].
      rewrite (Hb y Hin) in Fy. discriminate Fy.
    + simpl. rewrite Fx. reflexivity.
Qed.

Lemma NoDup_snoc {A : Type} (l : list A) (x : A) :
  NoDup l -> ~ In x l -> NoDup (l ++ [x]).
Proof.
  intros Hl Hx. apply NoDup_app; trivial.
  - constructor; [intros [] | constructor].
  - intros a Ha [<- | []]. exact (Hx Ha).
Qed.

End ListFacts.

Section Routes.

Variable L : Libs.
Variable env_JWT_SECRET : option string.

Lemma register_runs (req_body : Credentials) (fresh : Fresh) (users : Store) :
  present (email req_body) = true ->
  present (password req_body) = true ->
  find (same_email L (text (email req_body))) users = None ->
  let newUser :=
    {| User.id := uuid fresh;
       User.email := text (email req_body);
       User.passwordHash :=
         bcrypt_hash L (text (password req_body)) 10 (salt fresh);
       User.createdAt := now_iso fresh |} in
  register L env_JWT_SECRET req_body fresh users
  = (Ret {| status := 200;
            body := SessionReply
                      (generateToken L env_JWT_SECRET newUser (clock fresh))
                      (uuid fresh) (text (email req_body)) |},
     (users ++ [newUser])%list).
Proof.
  intros He Hp Hf. cbv zeta. run. rewrite He, Hp. cbn. rewrite Hf. reflexivity.
Qed.


(** X1: a request to either auth route that lacks the email or the password,
    or has it empty, is answered 400 before the store is looked at, and the
    store stays as it was. *)
Theorem missing_fields_rejected (via : issuer) (req_body : Credentials)
  (users : Store) :
  present (email req_body) = false \/ present (password req_body) = false ->
  issue L env_JWT_SECRET via req_body users
  = (Ret {| status := 400; body := ErrorReply "email and password required" |},
     users).
Proof.
  intros H.
  assert (negb (present (email req_body))
          || negb (present (password req_body)) = true) as G.
  { destruct H as [-> | ->]; [reflexivity | apply orb_true_r]. }
  destruct via; run; rewrite G; reflexivity.
Qed.

Lemma register_cases (req_body : Credentials) (fresh : Fresh) (users : Store) :
  register L env_JWT_SECRET req_body fresh users
  = (Ret {| status := 400; body := ErrorReply "email and password required" |},
     users)
  \/ register L env_JWT_SECRET req_body fresh users
     = (Ret {| status := 409; body := ErrorReply "user already exists" |},
        users)
  \/ (present (email req_body) = true
      /\ present (password req_body) = true
      /\ find (same_email L (text (email req_body))) users = None).
Proof.
  run.
  destruct (present (email req_body)), (present (password req_body));
    cbn; try (left; reflexivity).
  destruct (find _ users) as [existing | ].
  - right. left. reflexivity.
  - right. right. repeat split.
Qed.

(** X2: whenever registration answers, the status is 200, 400 or 409, and
    the store has changed exactly when it is 200: one user appended then,
    and the store as it was otherwise. *)
Theorem register_outcomes (req_body : Credentials) (fresh : Fresh)
  (users users' : Store) (response : Response) :
  register L env_JWT_SECRET req_body fresh users = (Ret response, users') ->
  (status response = 200 /\ exists u, users' = (users ++ [u])%list)
  \/ ((status response = 400 \/ status response = 409) /\ users' = users).
Proof.
  intros Hrun.
  destruct (register_cases req_body fresh users)
    as [H | [H | (He & Hp & Hf)]].
  - rewrite H in Hrun. inversion Hrun; subst.
    right. split; [left |]; reflexivity.
  - rewrite H in Hrun. inversion Hrun; subst.
    right. split; [right |]; reflexivity.
  - rewrite (register_runs _ fresh _ He Hp Hf) in Hrun.
    inversion Hrun; subst.
    left. split; [reflexivity |]. eexists. reflexivity.
Qed.

(** X3: login, [GET /me] and [POST /ai/get-review] never write the store,
    whatever the request and whatever the answer. *)
Theorem reading_routes_keep_store (req_body : Credentials)
  (authorization : option string) (clock : nat) (code : option json)
  (users : Store) :
  snd (post_auth_login L env_JWT_SECRET req_body clock users) = users
  /\ snd (get_me L env_JWT_SECRET authorization clock users) = users
  /\ snd (post_ai_get_review L env_JWT_SECRET authorization clock code users)
     = users.
Proof.
  split; [apply login_keeps_store |].
  split; apply authMiddleware_keeps_store; intros user.
  - apply me_keeps_store.
  - apply get_review_keeps_store.
Qed.

(** X4: registration keeps the emails of the store distinct up to case. *)
Theorem register_keeps_emails_distinct (req_body : Credentials)
  (fresh : Fresh) (users : Store) :
  emails_distinct L users ->
  emails_distinct L (snd (register L env_JWT_SECRET req_body fresh users)).
Proof.
  intros Hd.
  destruct (register_cases req_body fresh users)
    as [H | [H | (He & Hp & Hf)]];
    [rewrite H; exact Hd | rewrite H; exact Hd |].
  rewrite (register_runs _ fresh _ He Hp Hf).
  cbn [snd]. unfold emails_distinct in *.
  rewrite map_app. simpl. apply ListFacts.NoDup_snoc; [exact Hd |].
  intros Hin. apply in_map_iff in Hin. destruct Hin as (u & Hu & Hin).
  pose proof (find_none _ _ Hf u Hin) as Hno. unfold same_email in Hno.
  rewrite Hu, String.eqb_refl in Hno. discriminate Hno.
Qed.

(** X5: when the uuid drawn is not the id of a stored user, registration
    keeps the ids of the store distinct. *)
Theorem register_keeps_ids_distinct (req_body : Credentials)
  (fresh : Fresh) (users : Store) :
  NoDup (map User.id users) ->
  ~ In (uuid fresh) (map User.id users) ->
  NoDup (map User.id (snd (register L env_JWT_SECRET req_body fresh users))).
Proof.
  intros Hd Hfresh.
  destruct (register_cases req_body fresh users)
    as [H | [H | (He & Hp & Hf)]];
    [rewrite H; exact Hd | rewrite H; exact Hd |].
  rewrite (register_runs _ fresh _ He Hp Hf).
  cbn [snd].
  rewrite map_app. simpl. apply ListFacts.NoDup_snoc; assumption.
Qed.



(** X8: a login is answered 200 only when the first stored user with that
    email, up to case, has a hash that [bcrypt.compare] accepts for the
    password; the reply carries the id and the email of that user. *)
Theorem login_success_sound (req_body : Credentials) (clock : nat)
  (users users' : Store) (response : Response) :
  login L env_JWT_SECRET req_body clock users = (Ret response, users') ->
  status response = 200 ->
  exists u,
    find (same_email L (text (email req_body))) users = Some u
    /\ bcrypt_compare L (text (password req_body)) (User.passwordHash u) = true
    /\ body response
       = SessionReply (generateToken L env_JWT_SECRET u clock)
           (User.id u) (User.email u).
Proof.
  intros Hrun Hok. run.
  destruct (negb (present (email req_body))
            || negb (present (password req_body)));
    [inversion Hrun; subst; discriminate Hok |].
  destruct (find _ users) as [u | ];
    [ | inversion Hrun; subst; discriminate Hok].
  destruct (bcrypt_compare L _ _) eqn:Hc; cbn in Hrun;
    [ | inversion Hrun; subst; discriminate Hok].
  inversion Hrun; subst. exists u. repeat split. exact Hc.
Qed.

(** X9: [findUserByEmail] gives the first stored user whose lowercased email
    equals the lowercased argument, none when there is no such user, and
    leaves the store as it was. *)
Theorem findUserByEmail_first (address : string) (users : Store) :
  exists found,
    findUserByEmail L address users = (Ret found, users)
    /\ (found = None <->
        forall u, In u users ->
                  toLowerCase L (User.email u) <> toLowerCase L address)
    /\ (forall u, found = Some u <->
          exists before after,
            users = (before ++ u :: after)%list
            /\ toLowerCase L (User.email u) = toLowerCase L address
            /\ forall v, In v before ->
                 toLowerCase L (User.email v) <> toLowerCase L address).
Proof.
  exists (find (same_email L address) users).
  split; [reflexivity |].
  assert (forall u, same_email L address u = true <->
                    toLowerCase L (User.email u) = toLowerCase L address) as T.
  { intros u. unfold same_email. apply String.eqb_eq. }
  assert (forall u, same_email L address u = false <->
                    toLowerCase L (User.email u) <> toLowerCase L address) as F.
  { intros u. unfold same_email. apply String.eqb_neq. }
  split.
  - split.
    + intros Hn u Hin. apply F. exact (find_none _ _ Hn u Hin).
    + intros Hall. destruct (find _ users) as [u | ] eqn:Hf; [ | reflexivity].
      apply find_some in Hf. destruct Hf as [Hin Hu].
      apply T in Hu. contradiction (Hall u Hin).
  - intros u. rewrite ListFacts.find_first. split.
    + intros (before & after & -> & Hu & Hb).
      exists before, after. split; [reflexivity |].
      split; [apply T, Hu |]. intros v Hv. apply F, Hb, Hv.
    + intros (before & after & -> & Hu & Hb).
      exists before, after. split; [reflexivity |].
      split; [apply T, Hu |]. intros v Hv. apply F, Hb, Hv.
Qed.

(** X10: behind the token gate, [GET /me] answers from the store and not
    from the token: 404 when no stored user has the id of the token, else
    200 with the id, email and creation date of the first stored user with
    that id. *)
Theorem me_answers_from_store (authorization : option string) (clock : nat)
  (payload : Payload.t) (users : Store) :
  accepted L env_JWT_SECRET authorization clock payload ->
  ((forall u, In u users -> User.id u <> Payload.id payload) ->
   get_me L env_JWT_SECRET authorization clock users
   = (Ret {| status := 404; body := ErrorReply "not found" |}, users))
  /\ (forall before u after,
        users = (before ++ u :: after)%list ->
        User.id u = Payload.id payload ->
        (forall v, In v before -> User.id v <> Payload.id payload) ->
        get_me L env_JWT_SECRET authorization clock users
        = (Ret {| status := 200;
                  body := UserReply (User.id u) (User.email u)
                            (User.createdAt u) |}, users)).
Proof.
  intros Hacc. unfold get_me.
  rewrite (authMiddleware_next _ _ Hacc).
  split.
  - intros Hnone. run.
    destruct (find _ users) as [u | ] eqn:Hf; [ | reflexivity].
    apply find_some in Hf. destruct Hf as [Hin Hu].
    apply String.eqb_eq in Hu. contradiction (Hnone u Hin).
  - intros before u after Husers Hid Hbefore. run.
    assert (find (fun x => (User.id x =? Payload.id payload)%string) users
            = Some u) as ->; [ | reflexivity].
    apply ListFacts.find_first. exists before, after.
    split; [exact Husers |].
    split; [apply String.eqb_eq, Hid |].
    intros v Hv. apply String.eqb_neq, Hbefore, Hv.
Qed.

Lemma split_first_part (sep : ascii) (word rest : string) :
  JS.includes sep word = false ->
  JS.split sep (word ++ String sep rest) = word :: JS.split sep rest.
Proof.
  induction word as [ | c word IH]; simpl; intros H.
  - rewrite Ascii.eqb_refl. reflexivity.
  - apply orb_false_iff in H. destruct H as [Hc Hw].
    rewrite Hc, (IH Hw). reflexivity.
Qed.

Lemma present_with_separator (word rest : string) (c : ascii) :
  present (Some (word ++ String c rest)) = true.
Proof. destruct word; reflexivity. Qed.

(** X11: [authMiddleware] does not look at the first part of the header:
    two headers that differ only in the word before the first space get the
    same treatment. *)
Theorem scheme_word_ignored (word1 word2 rest : string) (clock : nat)
  (next : Payload.t -> M Response) (users : Store) :
  JS.includes " " word1 = false ->
  JS.includes " " word2 = false ->
  authMiddleware L env_JWT_SECRET (Some (word1 ++ String " " rest)) clock
    next users
  = authMiddleware L env_JWT_SECRET (Some (word2 ++ String " " rest)) clock
      next users.
Proof.
  intros H1 H2. unfold authMiddleware.
  rewrite !present_with_separator. cbn [negb text].
  rewrite (@split_first_part _ word1 rest H1), (@split_first_part _ word2 rest H2).
  reflexivity.
Qed.

Lemma split_length (sep : ascii) (s : string) :
  List.length (JS.split sep s) = S (occurrences sep s).
Proof.
  induction s as [ | c rest IH]; simpl; [reflexivity |].
  destruct (c =? sep)%char; simpl.
  - rewrite IH. reflexivity.
  - destruct (JS.split sep rest) as [ | first others]; simpl in *;
      [discriminate IH | exact IH].
Qed.

(** X12: a header that is not empty and does not hold exactly one space is
    answered 401 with [invalid authorization header], without a look at the
    token and without running the route. *)
Theorem header_needs_one_space (header : string) (clock : nat)
  (next : Payload.t -> M Response) (users : Store) :
  header <> "" ->
  occurrences " " header <> 1 ->
  authMiddleware L env_JWT_SECRET (Some header) clock next users
  = (Ret {| status := 401; body := ErrorReply "invalid authorization header" |},
     users).
Proof.
  intros Hne Hocc. unfold authMiddleware. cbn [present text].
  unfold JS.truthy_string.
  destruct (String.eqb_spec header "") as [E | _]; [contradiction |].
  cbn [negb]. rewrite split_length.
  destruct (Nat.eqb_spec (S (occurrences " " header)) 2) as [E | _];
    [exfalso; apply Hocc; lia | reflexivity].
Qed.

(** X13: [POST /ai/get-review] never answers 200.  Every request ends in
    401 from the gate, in 400 for a [code] that is not a string with
    content, or in the SyntaxError of the pattern of [hasConsole]; the store
    is untouched in each case. *)
Theorem get_review_never_answers (authorization : option string)
  (clock : nat) (code : option json) (users : Store) :
  (exists message,
      post_ai_get_review L env_JWT_SECRET authorization clock code users
      = (Ret {| status := 401; body := ErrorReply message |}, users))
  \/ post_ai_get_review L env_JWT_SECRET authorization clock code users
     = (Ret {| status := 400; body := ErrorReply "code required" |}, users)
  \/ post_ai_get_review L env_JWT_SECRET authorization clock code users
     = (Throw (SyntaxError "Unterminated group"), users).
Proof.
  unfold post_ai_get_review, authMiddleware.
  destruct (negb (present authorization));
    [left; eexists; reflexivity |].
  destruct (negb (List.length _ =? 2));
    [left; eexists; reflexivity |].
  destruct (jwt_verify L _ _ _) as [payload | ];
    [ | left; eexists; reflexivity].
  right.
  destruct (nonempty_string code) eqn:Hcode.
  - right.
    destruct code as [[ | b | q | s | items | fields] | ];
      try discriminate Hcode.
    apply get_review_throws. intros ->. discriminate Hcode.
  - left. unfold get_review. rewrite get_review_guard, Hcode. reflexivity.
Qed.

(** X17: when [JWT_SECRET] is not set in the environment, or is empty, the
    gate accepts every unexpired token signed with the text [dev_secret]:
    the route runs with whatever payload was signed. *)
Theorem default_secret_tokens_pass (payload : Payload.t) (iat now : nat)
  (next : Payload.t -> M Response) (users : Store) :
  present env_JWT_SECRET = false ->
  jwt_contract L ->
  now < iat + seven_days ->
  JS.includes " " (jwt_sign L payload "dev_secret" "7d" iat) = false ->
  authMiddleware L env_JWT_SECRET
    (Some ("Bearer " ++ jwt_sign L payload "dev_secret" "7d" iat)) now
    next users
  = next payload users.
Proof.
  intros Henv Hjwt Hnow Hsp. apply authMiddleware_next.
  unfold accepted, text. rewrite (JSFacts.split_bearer _ Hsp).
  split; [reflexivity |]. split; [reflexivity |].
  cbn [nth]. unfold JWT_SECRET. rewrite Henv.
  apply Hjwt. exact Hnow.
Qed.

End Routes.

Lemma occurrences_append (c : ascii) (a b : string) :
  occurrences c (a ++ b) = occurrences c a + occurrences c b.
Proof.
  induction a as [ | d a IH]; simpl; [reflexivity |].
  rewrite IH. lia.
Qed.

(** X18: the line count of the review is one more than the number of line
    feeds in the text: no text has fewer than one line, not even the empty
    one, and a line feed put at the end adds a line. *)
Theorem line_count_is_line_feeds_plus_one (code : string) :
  List.length (JS.split JS.LF code) = S (occurrences JS.LF code)
  /\ 1 <= List.length (JS.split JS.LF code)
  /\ List.length (JS.split JS.LF (code ++ String JS.LF ""))
     = S (List.length (JS.split JS.LF code)).
Proof.
  split; [apply split_length |].
  split.
  - rewrite split_length. lia.
  - rewrite !split_length, occurrences_append. simpl. lia.
Qed.

(** ** What the pattern of [trailingWhitespace] matches *)

Module TrailingFacts.
Import RegExp.

Lemma length_append (a b : string) :
  String.length (a ++ b) = String.length a + String.length b.
Proof. induction a as [ | c a IH]; simpl; [ | rewrite IH]; reflexivity. Qed.

Lemma get_at_length (pre : string) (c : ascii) (post : string) :
  String.get (String.length pre) (pre ++ String c post) = Some c.
Proof. induction pre as [ | d pre IH]; simpl; [reflexivity | exact IH]. Qed.

Lemma get_past_length (pre : string) (c : ascii) (post : string) (p : nat) :
  String.get (String.length pre + S p) (pre ++ String c post)
  = String.get p post.
Proof. induction pre as [ | d pre IH]; simpl; [reflexivity | exact IH]. Qed.

Lemma get_decompose (s : string) (i : nat) (c : ascii) :
  String.get i s = Some c ->
  exists pre post, s = pre ++ String c post /\ String.length pre = i.
Proof.
  revert i. induction s as [ | d s IH]; intros i H; [discriminate H |].
  destruct i as [ | i]; simpl in H.
  - inversion H; subst. exists EmptyString, s. split; reflexivity.
  - destruct (IH i H) as (pre & post & -> & Hlen).
    exists (String d pre), post. simpl. split; [reflexivity | now rewrite Hlen].
Qed.

Lemma length_run_of (c : ascii) (k : nat) : String.length (run_of c k) = k.
Proof. induction k as [ | k IH]; simpl; [ | rewrite IH]; reflexivity. Qed.

Lemma get_run_of (c : ascii) (k p : nat) :
  p < k -> String.get p (run_of c k) = Some c.
Proof.
  revert p. induction k as [ | k IH]; intros p H; [lia |].
  destruct p as [ | p]; simpl; [reflexivity | apply IH; lia].
Qed.

Lemma run_of_all (c : ascii) (t : string) :
  (forall p, p < String.length t -> String.get p t = Some c) ->
  t = run_of c (String.length t).
Proof.
  induction t as [ | d t IH]; intros H; simpl; [reflexivity |].
  assert (d = c) as ->.
  { specialize (H 0). simpl in H. assert (0 < S (String.length t)) as G by lia.
    specialize (H G). now inversion H. }
  f_equal. apply IH. intros p Hp. apply (H (S p)). simpl. lia.
Qed.

Lemma in_one (c : ascii) (s : string) (i e : nat) :
  In e (one (Ascii.eqb c) s i) <-> e = S i /\ String.get i s = Some c.
Proof.
  unfold one. destruct (String.get i s) as [d | ]; simpl.
  - destruct (Ascii.eqb_spec c d) as [-> | N]; simpl.
    + split; [intros [<- | []]; split; reflexivity | intros [-> _]; now left].
    + split; [intros [] | intros [_ H]; inversion H; subst; contradiction].
  - split; [intros [] | intros [_ H]; discriminate H].
Qed.

Lemma rounds_sound (c : ascii) (s : string) (fuel j e : nat) :
  In e (rounds (one (Ascii.eqb c) s) fuel j) ->
  j <= e /\ forall p, j <= p < e -> String.get p s = Some c.
Proof.
  revert j. induction fuel as [ | fuel IH]; intros j H; simpl in H.
  - destruct H as [<- | []]. split; [lia | intros p Hp; lia].
  - destruct H as [<- | H]; [split; [lia | intros p Hp; lia] |].
    apply in_flat_map in H. destruct H as (x & Hx & He).
    apply in_one in Hx. destruct Hx as [-> Hj].
    destruct (Nat.ltb_spec j (S j)) as [_ | F]; [ | lia].
    destruct (IH _ He) as [Hle Hall]. split; [lia |].
    intros p Hp. destruct (Nat.eq_dec p j) as [-> | N]; [exact Hj |].
    apply Hall. lia.
Qed.

Lemma rounds_complete (c : ascii) (s : string) (fuel j e : nat) :
  j <= e -> e - j <= fuel ->
  (forall p, j <= p < e -> String.get p s = Some c) ->
  In e (rounds (one (Ascii.eqb c) s) fuel j).
Proof.
  revert j. induction fuel as [ | fuel IH]; intros j Hle Hfuel Hall; simpl.
  - left. lia.
  - destruct (Nat.eq_dec e j) as [-> | N]; [now left |].
    right. apply in_flat_map. exists (S j). split.
    + apply in_one. split; [reflexivity | apply Hall; lia].
    + destruct (Nat.ltb_spec j (S j)) as [_ | F]; [ | lia].
      apply IH; [lia | lia |]. intros p Hp. apply Hall. lia.
Qed.

Lemma matches_at_iff (r : regex) (s : string) (i : nat) :
  matches_at r s i = true <-> exists e, In e (ends r s i).
Proof.
  unfold matches_at. destruct (ends r s i) as [ | e l].
  - split; [discriminate | intros (e & [])].
  - split; [intros _; exists e; now left | reflexivity].
Qed.

(** A pattern of the shape [b c+ $]: a code unit, then one or more of
    another, then the end of the input. *)
Lemma test_unit_run_end (b c : ascii) (s : string) :
  test (Seq (Seq (Chr b) (Plus (Chr c))) Eol) s = true <->
  exists pre k, s = pre ++ String b (run_of c (S k)).
Proof.
  unfold test. rewrite existsb_exists. split.
  - intros (i & Hi & Hm). apply matches_at_iff in Hm.
    destruct Hm as (e & He). cbn [ends] in He.
    apply in_flat_map in He. destruct He as (e1 & He1 & He).
    destruct (Nat.eqb_spec e1 (String.length s)) as [E | N];
      [ | destruct He].
    apply in_flat_map in He1. destruct He1 as (a & Ha & He1).
    apply in_one in Ha. destruct Ha as [-> Hb].
    apply in_flat_map in He1. destruct He1 as (a2 & Ha2 & He1).
    apply in_one in Ha2. destruct Ha2 as [-> Hc].
    apply rounds_sound in He1. destruct He1 as [Hle Hall].
    destruct (get_decompose _ _ Hb) as (pre & post & -> & Hlen).
    exists pre. rewrite length_append in E. simpl in E.
    assert (post = run_of c (String.length post)) as Hpost.
    { apply run_of_all. intros p Hp.
      destruct p as [ | p].
      - rewrite <- Hlen in Hc.
        replace (S (String.length pre)) with (String.length pre + 1) in Hc
          by lia.
        rewrite get_past_length in Hc. exact Hc.
      - rewrite <- (get_past_length pre b post (S p)).
        apply Hall. lia. }
    destruct (String.length post) as [ | k] eqn:Hk; [lia |].
    exists k. rewrite Hpost at 1. reflexivity.
  - intros (pre & k & Hs).
    assert (String.length s = String.length pre + S (S k)) as Hlen.
    { rewrite Hs, length_append. simpl. rewrite length_run_of. lia. }
    assert (String.get (String.length pre) s = Some b) as Hb.
    { rewrite Hs. apply get_at_length. }
    assert (forall p, String.length pre < p < String.length s ->
                      String.get p s = Some c) as Hc.
    { intros p Hp. rewrite Hs.
      replace p with (String.length pre + S (p - String.length pre - 1))
        by lia.
      rewrite get_past_length. apply get_run_of. lia. }
    exists (String.length pre). split; [apply in_seq; lia |].
    apply matches_at_iff. exists (String.length s).
    cbn [ends]. apply in_flat_map. exists (String.length s).
    split; [ | rewrite Nat.eqb_refl; now left].
    apply in_flat_map. exists (S (String.length pre)).
    split; [apply in_one; split; [reflexivity | exact Hb] |].
    apply in_flat_map. exists (S (S (String.length pre))).
    split; [apply in_one; split; [reflexivity | apply Hc; lia] |].
    apply rounds_complete; [lia | lia |].
    intros p Hp. apply Hc. lia.
Qed.

End TrailingFacts.

(** X19: the test on line 108 never throws, and it answers true exactly on
    a text that ends in a backslash followed by one or more letters s. *)
Theorem trailingWhitespace_detects (code : string) :
  (exists answer, Review.trailingWhitespace code = Ret answer)
  /\ (Review.trailingWhitespace code = Ret true <->
      exists pre k, code = pre ++ String "\"%char (run_of "s"%char (S k))).
Proof.
  unfold Review.trailingWhitespace, RegExp.literal_test.
  rewrite RegExpFacts.trailingWhitespace_pattern.
  split; [eexists; reflexivity |].
  rewrite <- TrailingFacts.test_unit_run_end.
  split; [intros H; injection H as H; exact H | intros H; rewrite H; reflexivity].
Qed.

(** ** The suggestion list and the report *)

Module ReportFacts.
Import Review.

(** X14: the suggestion list is never empty and has at most three
    elements; the no obvious issues message is in it exactly when the text
    has at most 200 lines and neither test matched, and then it is alone. *)
Theorem suggestions_shape (n : nat) (hc tw : bool) :
  suggest n hc tw <> []
  /\ List.length (suggest n hc tw) <= 3
  /\ (In no_issues (suggest n hc tw)
      <-> n <= 200 /\ hc = false /\ tw = false)
  /\ (In no_issues (suggest n hc tw) -> suggest n hc tw = [no_issues]).
Proof.
  unfold suggest.
  destruct (Nat.ltb_spec 200 n) as [Hn | Hn]; destruct hc, tw; cbn;
    (split; [discriminate |]);
    (split; [lia |]);
    (split; [ | intros H; try reflexivity;
                repeat (destruct H as [H | H]; try discriminate H);
                try contradiction]);
    (split; [intros H;
             repeat (destruct H as [H | H]; try discriminate H);
             try contradiction; try (repeat split; trivial; lia)
            | intros (H1 & H2 & H3);
              try discriminate H2; try discriminate H3; try lia;
              left; reflexivity]).
Qed.

Lemma includes_app (c : ascii) (a b : string) :
  JS.includes c (a ++ b) = JS.includes c a || JS.includes c b.
Proof.
  induction a as [ | d a IH]; simpl; [reflexivity |].
  rewrite IH. apply orb_assoc.
Qed.

Lemma digits_no_line_feed (d : Decimal.uint) :
  JS.includes JS.LF (NilEmpty.string_of_uint d) = false.
Proof. induction d; simpl; trivial. Qed.

(** X15: the report is joined with a backslash and the letter n, not with
    line feeds: whatever the tests found, its text holds a line feed only if
    the email of the author does. *)
Theorem reviewMarkdown_is_one_line (n : nat) (hc tw : bool)
  (user : Payload.t) :
  JS.includes JS.LF (Payload.email user) = false ->
  JS.includes JS.LF
    (reviewMarkdown {| lines := n; suggestions := suggest n hc tw |} user)
  = false.
Proof.
  intros Hemail. unfold reviewMarkdown, JS.join, JS.decimal, suggest.
  cbn [lines suggestions].
  destruct (200 <? n), hc, tw; cbn [push_if List.length Nat.eqb app map];
    cbn [String.concat];
    repeat rewrite includes_app;
    rewrite Hemail, digits_no_line_feed; reflexivity.
Qed.

End ReportFacts.

(** ** The data file at start-up *)


(** ** The further theorems at concrete inputs *)

Module SampleContracts.


End SampleContracts.

Lemma missing_fields_rejected_witness :
  issue Sample.libs None (ViaLogin 5)
    {| email := Some "a@x.com"; password := Some "" |} [Sample.alice]
  = (Ret {| status := 400; body := ErrorReply "email and password required" |},
     [Sample.alice]).
Proof.
  apply (@missing_fields_rejected Sample.libs None (ViaLogin 5)
           {| email := Some "a@x.com"; password := Some "" |} [Sample.alice]).
  right. reflexivity.
Defined.

Lemma register_keeps_emails_distinct_witness :
  emails_distinct Sample.libs
    (snd (register Sample.libs None (Sample.credentials "b@x.com" "p2")
            Sample.fresh [Sample.alice])).
Proof.
  apply (@register_keeps_emails_distinct Sample.libs None
           (Sample.credentials "b@x.com" "p2") Sample.fresh [Sample.alice]).
  unfold emails_distinct. simpl. constructor; [intros [] | constructor].
Defined.

Lemma register_keeps_ids_distinct_witness :
  NoDup (map User.id
           (snd (register Sample.libs None (Sample.credentials "b@x.com" "p2")
                   Sample.fresh [Sample.alice]))).
Proof.
  apply (@register_keeps_ids_distinct Sample.libs None
           (Sample.credentials "b@x.com" "p2") Sample.fresh [Sample.alice]).
  - simpl. constructor; [intros [] | constructor].
  - simpl. intros [H | []]. discriminate H.
Defined.



Lemma login_success_sound_witness :
  exists u,
    find (same_email Sample.libs "A@X.com") [Sample.alice] = Some u
    /\ bcrypt_compare Sample.libs "p1" (User.passwordHash u) = true
    /\ SessionReply Sample.alice_token "u1" "a@x.com"
       = SessionReply (generateToken Sample.libs None u 5)
           (User.id u) (User.email u).
Proof.
  apply (@login_success_sound Sample.libs None
           (Sample.credentials "A@X.com" "p1") 5 [Sample.alice] [Sample.alice]
           {| status := 200;
              body := SessionReply Sample.alice_token "u1" "a@x.com" |});
    reflexivity.
Defined.

Lemma me_answers_from_store_witness :
  get_me Sample.libs None (Some ("Bearer " ++ Sample.alice_token)) 5 []
  = (Ret {| status := 404; body := ErrorReply "not found" |}, []).
Proof.
  apply (@me_answers_from_store Sample.libs None
           (Some ("Bearer " ++ Sample.alice_token)) 5
           {| Payload.id := "u1"; Payload.email := "a@x.com" |} []).
  - unfold accepted. split; [reflexivity | split; reflexivity].
  - intros u [].
Defined.

Lemma scheme_word_ignored_witness :
  authMiddleware Sample.libs None (Some ("Bearer " ++ Sample.alice_token)) 5
    me [Sample.alice]
  = authMiddleware Sample.libs None (Some ("Basic " ++ Sample.alice_token)) 5
      me [Sample.alice].
Proof.
  apply (@scheme_word_ignored Sample.libs None "Bearer" "Basic"
           Sample.alice_token 5 me [Sample.alice]);
    reflexivity.
Defined.

Lemma header_needs_one_space_witness :
  authMiddleware Sample.libs None
    (Some ("Bearer  " ++ Sample.alice_token)) 5 me
    [Sample.alice]
  = (Ret {| status := 401; body := ErrorReply "invalid authorization header" |},
     [Sample.alice]).
Proof.
  apply (@header_needs_one_space Sample.libs None
           ("Bearer  " ++ Sample.alice_token) 5 me
           [Sample.alice]).
  - discriminate.
  - simpl. discriminate.
Defined.

Lemma reviewMarkdown_is_one_line_witness :
  JS.includes JS.LF
    (Review.reviewMarkdown
       {| Review.lines := 3; Review.suggestions := Review.suggest 3 true true |}
       {| Payload.id := "u1"; Payload.email := "a@x.com" |})
  = false.
Proof.
  apply (@ReportFacts.reviewMarkdown_is_one_line 3 true true
           {| Payload.id := "u1"; Payload.email := "a@x.com" |}).
  reflexivity.
Defined.

Lemma default_secret_tokens_pass_witness :
  authMiddleware Sample.libs (Some "")
    (Some ("Bearer " ++ Sample.alice_token)) 5 me [Sample.alice]
  = me {| Payload.id := "u1"; Payload.email := "a@x.com" |} [Sample.alice].
Proof.
  apply (@default_secret_tokens_pass Sample.libs (Some "")
           {| Payload.id := "u1"; Payload.email := "a@x.com" |} 0 5 me
           [Sample.alice]).
  - reflexivity.
  - exact SampleFacts.jwt_roundtrip.
  - unfold seven_days. lia.
  - reflexivity.
Defined.

(** ** Login on fields that are not strings *)

Section AnyJsonLogin.

Variable L : Libs.
Variable env_JWT_SECRET : option string.

Lemma truthy_as_json (field : option string) :
  truthy (as_json field) = present field.
Proof. destruct field; reflexivity. Qed.

Lemma find_same_email_strings (address : string) (users : Store) :
  AnyJson.find_same_email L (Some (JString address)) users
  = Ret (find (same_email L address) users).
Proof.
  induction users as [ | u rest IH]; simpl; [reflexivity |].
  unfold same_email at 1. destruct (_ =? _)%string; [reflexivity | exact IH].
Qed.

(** On a body whose fields are strings the two handlers agree. *)
Lemma login_on_strings (address secret : string) (clock : nat)
  (users : Store) :
  AnyJson.login L env_JWT_SECRET
    (any_json {| email := Some address; password := Some secret |})
    clock users
  = login L env_JWT_SECRET
      {| email := Some address; password := Some secret |} clock users.
Proof.
  unfold AnyJson.login, login, AnyJson.findUserByEmail, findUserByEmail.
  cbn [any_json AnyJson.email AnyJson.password email password as_json
       truthy present text].
  destruct (negb (JS.truthy_string address) || negb (JS.truthy_string secret));
    [reflexivity |].
  unfold bind, readUsers, lift, ret.
  rewrite find_same_email_strings.
  destruct (find _ users) as [u | ]; reflexivity.
Qed.

End AnyJsonLogin.

(** C5: a login for an email that no user has and a login with a wrong
    password for a user that exists should get the same 401.  With the
    password 7, a number, both fields are present; the login for an unknown
    email is answered 401 with [invalid credentials], but the login for the
    stored user throws, since [bcrypt.compare] rejects a password that is not
    a string: the two cases are told apart.  And with the email 123 the
    lookup itself throws on a store that is not empty, while a wrong
    password for a stored user is answered 401. *)
Theorem login_rejections_told_apart :
  let unknown := {| AnyJson.email := Some (JString "nobody@x.com");
                    AnyJson.password := Some (JNumber 7) |} in
  let wrong := {| AnyJson.email := Some (JString "a@x.com");
                  AnyJson.password := Some (JNumber 7) |} in
  let unknown' := {| AnyJson.email := Some (JNumber 123);
                     AnyJson.password := Some (JString "guess") |} in
  let wrong' := {| AnyJson.email := Some (JString "a@x.com");
                   AnyJson.password := Some (JString "guess") |} in
  AnyJson.login Sample.libs None unknown 5 [Sample.alice]
  = (Ret {| status := 401; body := ErrorReply "invalid credentials" |},
     [Sample.alice])
  /\ AnyJson.login Sample.libs None wrong 5 [Sample.alice]
     = (Throw (LibraryError "Illegal arguments: number, string"),
        [Sample.alice])
  /\ AnyJson.login Sample.libs None unknown' 5 [Sample.alice]
     = (Throw (TypeError "email.toLowerCase is not a function"),
        [Sample.alice])
  /\ AnyJson.login Sample.libs None wrong' 5 [Sample.alice]
     = (Ret {| status := 401; body := ErrorReply "invalid credentials" |},
        [Sample.alice]).
Proof.
  cbv zeta.
  split; [reflexivity |]. split; [reflexivity |].
  split; reflexivity.
Qed.

Lemma register_outcomes_witness :
  let users' :=
    snd (register Sample.libs None (Sample.credentials "b@x.com" "p2")
           Sample.fresh [Sample.alice]) in
  (200 = 200 /\ exists u, users' = ([Sample.alice] ++ [u])%list)
  \/ ((200 = 400 \/ 200 = 409) /\ users' = [Sample.alice]).
Proof.
  cbv zeta.
  apply (@register_outcomes Sample.libs None
           (Sample.credentials "b@x.com" "p2") Sample.fresh
           [Sample.alice] _
           {| status := 200;
              body := SessionReply "ii.u2iiiiiii.b@x.comdev_secret" "u2"
                        "b@x.com" |}).
  reflexivity.
Defined.
